(** * QuantOptions: the moving-average crossover backtest of [quant_trading_app.py]

    The pipeline of [main] (indicator columns, signal, lagged strategy
    returns, [dropna], cumulative curves and the three summary metrics) is
    embedded over Rocq's primitive binary64 floats, the type of every
    numeric column of the data frame.  Missing values are NaN, as in pandas.

    The pandas, numpy and [ta] calls of the script are modelled by the
    element-wise semantics they document.  Two deliberate choices of the
    model: sums are taken left to right (numpy sums pairwise beyond eight
    elements, pandas' rolling mean keeps a running sum), and [pct_change]
    does no forward fill (the [Close] column has no missing value once
    [load_data] has dropped incomplete rows). *)

From Stdlib Require Import ZArith List Sorted Bool Lia Floats.
From Stdlib Require Uint63.
Import ListNotations.

Open Scope float_scope.

(** ** Binary64 values *)

Module F64.

Definition of_nat (n : nat) : float := of_uint63 (Uint63.of_Z (Z.of_nat n)).

(** An int64 value converted to float64 ([astype(float)], done implicitly by
    [shift] and by mixed arithmetic). *)
Definition of_Z (z : Z) : float :=
  match z with
  | Z0 => 0
  | Zpos _ => of_uint63 (Uint63.of_Z z)
  | Zneg _ => - of_uint63 (Uint63.of_Z (Z.opp z))
  end.

(** [x != x], the test behind [isna]. *)
Definition isna (x : float) : bool := is_nan x.
Definition notna (x : float) : bool := negb (is_nan x).

End F64.

(** ** Series operations of pandas and numpy *)

Module Pandas.

(** A float64 column; its index is the range of positions [0 .. n-1], one
    per trading date of the price table, in increasing date order. *)
Definition Series := list float.

(** A column computed label by label over an index of [n] dates. *)
Definition tabulate {A : Type} (n : nat) (f : nat -> A) : list A :=
  map f (seq 0 n).

(** Reading a column at a date; a label the column lacks reads as missing. *)
Definition at_ (xs : Series) (t : nat) : float := nth t xs nan.

(** [Series.shift(1)]: every value moves one date later, the first date
    becomes missing. *)
Definition shift (xs : Series) : Series :=
  tabulate (length xs)
    (fun t => match t with O => nan | S p => at_ xs p end).

(** [Series.diff(1)], that is [xs - xs.shift(1)]. *)
Definition diff (xs : Series) : Series :=
  tabulate (length xs) (fun t => at_ xs t - at_ (shift xs) t).

(** [Series.pct_change()], that is [xs / xs.shift(1) - 1]. *)
Definition pct_change (xs : Series) : Series :=
  tabulate (length xs) (fun t => at_ xs t / at_ (shift xs) t - 1).

(** [a * b] on two columns of one frame. *)
Definition mul_series (a b : Series) : Series :=
  tabulate (length a) (fun t => at_ a t * at_ b t).

Definition sum (xs : Series) : float := fold_left PrimFloat.add xs 0.

(** [Series.rolling(window).mean()]: [min_periods] defaults to [window], so
    the first [window - 1] dates are missing; afterwards the mean of the
    trailing [window] values.  (pandas rejects a negative window; the
    sliders of [main] only yield positive ones.) *)
Definition rolling_mean (window : Z) (xs : Series) : Series :=
  let w := Z.to_nat window in
  tabulate (length xs)
    (fun t =>
       if (S t <? w)%nat then nan
       else sum (firstn w (skipn (S t - w) xs)) / F64.of_Z window).

(** The recurrence of [ewm(alpha, min_periods, adjust=False).mean()]:
    [weighted] is the running average, [nobs] the number of observations
    seen so far; a date is reported only once [nobs >= minp]. *)
Fixpoint ewm_go (alpha : float) (minp : nat) (weighted : float) (nobs : nat)
    (xs : Series) : Series :=
  match xs with
  | [] => []
  | cur :: rest =>
      let is_observation := F64.notna cur in
      let nobs' := if is_observation then S nobs else nobs in
      let weighted' :=
        if F64.notna weighted then
          if is_observation then
            if weighted =? cur then weighted
            else ((1 - alpha) * weighted + alpha * cur) / ((1 - alpha) + alpha)
          else weighted
        else if is_observation then cur else weighted in
      (if (minp <=? nobs')%nat then weighted' else nan)
        :: ewm_go alpha minp weighted' nobs' rest
  end.

Definition ewm_mean (alpha : float) (min_periods : nat) (xs : Series) : Series :=
  let minp := Nat.max min_periods 1 in
  match xs with
  | [] => []
  | x :: rest =>
      let nobs := if F64.notna x then 1%nat else 0%nat in
      (if (minp <=? nobs)%nat then x else nan) :: ewm_go alpha minp x nobs rest
  end.

(** [Series.cumprod()]: the running product, left to right. *)
Fixpoint cumprod_from (acc : float) (xs : Series) : Series :=
  match xs with
  | [] => []
  | x :: rest => (acc * x) :: cumprod_from (acc * x) rest
  end.

Definition cumprod (xs : Series) : Series :=
  match xs with
  | [] => []
  | x :: rest => x :: cumprod_from x rest
  end.

(** [Series.iloc[-1]]: the value at the last position; out of bounds on an
    empty column. *)
Definition iloc_last (xs : Series) : option float :=
  match xs with
  | [] => None
  | _ :: _ => Some (at_ xs (length xs - 1))
  end.

(** [Series.mean()]: missing values are skipped; no value at all gives NaN. *)
Definition mean (xs : Series) : float :=
  let values := filter F64.notna xs in
  match values with
  | [] => nan
  | _ => sum values / F64.of_nat (length values)
  end.

(** [Series.var(ddof)]: NaN unless more than [ddof] values are present,
    else the squared deviations from the mean over [count - ddof]. *)
Definition var (ddof : nat) (xs : Series) : float :=
  let values := filter F64.notna xs in
  let count := length values in
  if (count <=? ddof)%nat then nan
  else
    let avg := sum values / F64.of_nat count in
    sum (map (fun x => (avg - x) * (avg - x)) values) / F64.of_nat (count - ddof).

(** [Series.std()], with pandas' default [ddof=1]. *)
Definition std (xs : Series) : float := sqrt (var 1 xs).

End Pandas.

(** ** [ta.momentum.RSIIndicator] *)

Module Ta.
Import Pandas.

(** [RSIIndicator(close, window).rsi()] with [fillna=False]. *)
Definition RSIIndicator_rsi (close : Series) (window : Z) : Series :=
  let d := diff close in
  let up_direction := map (fun x => if 0 <? x then x else 0) d in
  let down_direction := map (fun x => - (if x <? 0 then x else 0)) d in
  let min_periods := Z.to_nat window in
  let alpha := 1 / F64.of_Z window in
  let emaup := ewm_mean alpha min_periods up_direction in
  let emadn := ewm_mean alpha min_periods down_direction in
  tabulate (length close)
    (fun t =>
       let relative_strength := at_ emaup t / at_ emadn t in
       if at_ emadn t =? 0 then 100
       else 100 - 100 / (1 + relative_strength)).

End Ta.

(** ** The dashboard's backtest *)

Module App.
Import Pandas.

(** One row of [data] once every column of [main] has been added.  [Date]
    is the position of the row's date in the loaded price table; the other
    price columns (Open, High, Low, Volume) hold no missing value after
    [load_data] and play no part in the computation. *)
Record Row := mkRow {
  Date : nat;
  Close : float;
  SMA_short : float;
  SMA_long : float;
  RSI : float;
  Signal : Z;
  Strategy_Returns : float;
  Market_Returns : float
}.

(** [np.where(data['SMA_short'] > data['SMA_long'], 1, -1)] *)
Definition np_where_gt (sma_s sma_l : Series) : list Z :=
  tabulate (length sma_s)
    (fun t => if at_ sma_l t <? at_ sma_s t then 1%Z else (-1)%Z).

(** [data['Signal'].shift(1)]: the integer column becomes float64 so that
    the first date can hold NaN. *)
Definition lagged_signal (signal : list Z) : Series :=
  shift (map F64.of_Z signal).

(** [data] after lines 68-70, before [dropna]. *)
Definition with_returns (close sma_s sma_l rsi : Series) : list Row :=
  let signal := np_where_gt sma_s sma_l in
  let strategy := mul_series (lagged_signal signal) (pct_change close) in
  let market := pct_change close in
  tabulate (length close)
    (fun t =>
       mkRow t (at_ close t) (at_ sma_s t) (at_ sma_l t) (at_ rsi t)
         (nth t signal 0%Z) (at_ strategy t) (at_ market t)).

Definition row_complete (r : Row) : bool :=
  F64.notna (Close r) && F64.notna (SMA_short r) && F64.notna (SMA_long r)
  && F64.notna (RSI r) && F64.notna (Strategy_Returns r)
  && F64.notna (Market_Returns r).

(** [data.dropna(inplace=True)]: a row with a missing value in any column
    is removed; the rows kept retain their dates. *)
Definition dropna (rows : list Row) : list Row := filter row_complete rows.

(** The signal column of the pipeline for given windows. *)
Definition signal_column (sma_short sma_long : Z) (close : Series) : list Z :=
  np_where_gt (rolling_mean sma_short close) (rolling_mean sma_long close).

(** [data] after line 71, for given window sizes. *)
Definition backtest (sma_short sma_long rsi_period : Z) (close : Series)
    : list Row :=
  let sma_s := rolling_mean sma_short close in
  let sma_l := rolling_mean sma_long close in
  let rsi := Ta.RSIIndicator_rsi close rsi_period in
  dropna (with_returns close sma_s sma_l rsi).

Record Metrics := mkMetrics {
  total_ret : float;
  annual_ret : float;
  sharpe : float
}.

Inductive Exception := IndexError.

(** What a run of [main] ends in: the no-data message and early return of
    line 42, an uncaught exception, or the rendered dashboard with the
    frame, the two cumulative columns of [perf_df] and the metrics. *)
Inductive Outcome :=
| NoData
| Raised (e : Exception)
| Rendered (data : list Row) (Market Strategy : Series) (m : Metrics).

(** Lines 73-90 on the frame left by [dropna]. *)
Definition performance (data : list Row) : Outcome :=
  let Cumulative_Market := cumprod (map (fun r => 1 + Market_Returns r) data) in
  let Cumulative_Strategy := cumprod (map (fun r => 1 + Strategy_Returns r) data) in
  match iloc_last Cumulative_Strategy with
  | None => Raised IndexError
  | Some last_value =>
      let returns := map Strategy_Returns data in
      Rendered data Cumulative_Market Cumulative_Strategy
        (mkMetrics (last_value - 1)
                   (mean returns * 252)
                   ((mean returns / std returns) * sqrt 252))
  end.

(** The state of the three sidebar sliders: the position the user left each
    one at, [None] when it was never touched. *)
Record Sidebar := mkSidebar {
  short_state : option Z;
  long_state : option Z;
  rsi_state : option Z
}.

(** [st.sidebar.slider(label, min_value, max_value, value)]: the widget
    yields its default until moved, and only positions between its two ends. *)
Definition slider (min_value max_value value : Z) (state : option Z) : Z :=
  match state with
  | None => value
  | Some v => Z.max min_value (Z.min max_value v)
  end.

Definition sma_short (ui : Sidebar) : Z := slider 5 50 10 (short_state ui).
Definition sma_long (ui : Sidebar) : Z := slider 20 200 50 (long_state ui).
Definition rsi_period (ui : Sidebar) : Z := slider 5 30 14 (rsi_state ui).

(** [main], on the sidebar state and the [Close] column that [load_data]
    returned. *)
Definition main (ui : Sidebar) (close : Series) : Outcome :=
  match close with
  | [] => NoData
  | _ => performance (backtest (sma_short ui) (sma_long ui) (rsi_period ui) close)
  end.

Definition default_ui : Sidebar := mkSidebar None None None.

End App.

(** ** Loading the price table *)

Module Loader.
Import Pandas.

(** One row of the table that [yf.download] returns: the close of a date
    and the other cells of that row (open, high, low, volume and whatever
    else the provider sends). *)
Record Bar := mkBar {
  Close : float;
  other_columns : list float
}.

Definition bar_complete (b : Bar) : bool :=
  F64.notna (Close b) && forallb F64.notna (other_columns b).

(** [load_data], on the table downloaded: [data.dropna(inplace=True)]. *)
Definition load_data (downloaded : list Bar) : list Bar :=
  filter bar_complete downloaded.

(** [data['Close']] *)
Definition Close_column (data : list Bar) : Series := map Close data.

(** [main] from the call of [load_data] on. *)
Definition dashboard (ui : App.Sidebar) (downloaded : list Bar) : App.Outcome :=
  App.main ui (Close_column (load_data downloaded)).

End Loader.

(** ** The quantities the specification names *)

Module Spec.
Import Pandas.

(** The product of [1 + r_i] over the records up to date [t] included,
    starting from 1.0 before the first record. *)
Definition compounded (returns : Series) (t : nat) : float :=
  fold_left PrimFloat.mul (map (fun r => 1 + r) (firstn (S t) returns)) 1.

(** The product of [1 + r_i] over all records. *)
Definition compounded_all (returns : Series) : float :=
  fold_left PrimFloat.mul (map (fun r => 1 + r) returns) 1.



End Spec.

(** ** Price tables used as worked examples *)

Module Examples.
Import Pandas App.

(** Five closes, with toy windows 2, 3 and 2. *)
Definition closes5 : Series := [100; 102; 101; 105; 110].

(** Nineteen flat closes, then three halvings; the sliders at their lower
    ends (5, 20, 5). *)
Definition closes22 : Series := repeat 64 19 ++ [32; 16; 8].
Definition ui_min : Sidebar := mkSidebar (Some 5%Z) (Some 20%Z) (Some 5%Z).

Definition frame5 : list Row := Eval vm_compute in backtest 2 3 2 closes5.
Definition frame22 : list Row :=
  Eval vm_compute in backtest (sma_short ui_min) (sma_long ui_min)
                              (rsi_period ui_min) closes22.

(** On [closes5] the averages cross at date 2: the row of that date carries
    the new signal [+1] but earns the return of the old one [-1]. *)
Definition crossing_row : Row :=
  mkRow 2 101 101.5 101 50 1 0x1.41414141414p-7 (-0x1.41414141414p-7).

(** The first row that [closes22] yields, at date 19. *)
Definition first_row22 : Row := Eval vm_compute in hd crossing_row frame22.

(** A downloaded table of three dates whose second row lacks a cell. *)
Definition downloaded3 : list Loader.Bar :=
  [Loader.mkBar 100 [99; 101; 98; 1000];
   Loader.mkBar 102 [100; nan; 99; 1200];
   Loader.mkBar 101 [102; 103; 100; 900]].

End Examples.

(** ** Binary64 facts used by the proofs *)

Module F64Facts.
Import F64.

Lemma one_repr : Prim2SF 1 = S754_finite false 4503599627370496 (-52).
Proof. reflexivity. Qed.

Lemma neg_one_repr : Prim2SF (-1) = S754_finite true 4503599627370496 (-52).
Proof. reflexivity. Qed.

Lemma nan_repr : Prim2SF nan = S754_nan.
Proof. reflexivity. Qed.

Lemma digits2_shift52 (m : positive) :
  Z.pos (digits2_pos (4503599627370496 * m)) = (Z.pos (digits2_pos m) + 52)%Z.
Proof. cbn [Pos.mul digits2_pos]. lia. Qed.

(** Scaling a canonical mantissa by [2^52] at exponent [e - 52] rounds back
    to the mantissa itself: the product with [±1.0] is exact. *)
Lemma round_scaled_exact (s : bool) (m : positive) (e : Z) :
  bounded prec emax m e = true ->
  binary_round_aux prec emax s (Z.pos (4503599627370496 * m)) (-52 + e) loc_Exact
  = S754_finite s m e.
Proof.
  intros Hb. unfold bounded, canonical_mantissa in Hb.
  apply andb_prop in Hb. destruct Hb as [Hc He].
  apply Z.eqb_eq in Hc.
  unfold binary_round_aux, shr_fexp, Zdigits2.
  rewrite digits2_shift52.
  replace (Z.pos (digits2_pos m) + 52 + (-52 + e))%Z
    with (Z.pos (digits2_pos m) + e)%Z by lia.
  rewrite Hc.
  replace (e - (-52 + e))%Z with 52%Z by lia.
  cbn [Pos.mul shr shr_record_of_loc iter_pos shr_1 orb].
  cbn [shr_m loc_of_shr_record round_nearest_even].
  replace (-52 + e + 52)%Z with e by lia.
  rewrite Hc, Z.sub_diag.
  cbn [shr shr_m].
  rewrite He. reflexivity.
Qed.

Lemma mul_one_l (x : float) : 1 * x = x.
Proof.
  apply Prim2SF_inj. rewrite FloatAxioms.mul_spec, one_repr.
  pose proof (Prim2SF_valid x) as Hv.
  destruct (Prim2SF x) as [s|s| |s m e]; try reflexivity.
  unfold SF64mul, SFmul. cbn [xorb].
  apply round_scaled_exact. exact Hv.
Qed.

Lemma mul_neg_one_l (x : float) : (-1) * x = - x.
Proof.
  apply Prim2SF_inj. rewrite FloatAxioms.mul_spec, FloatAxioms.opp_spec, neg_one_repr.
  pose proof (Prim2SF_valid x) as Hv.
  destruct (Prim2SF x) as [s|s| |s m e]; try reflexivity.
  unfold SF64mul, SFmul. cbn [xorb SFopp negb].
  apply round_scaled_exact. exact Hv.
Qed.

Lemma SFcompare_refl_finite (s : bool) (m : positive) (e : Z) :
  SFcompare (S754_finite s m e) (S754_finite s m e) = Some Eq.
Proof.
  cbn [SFcompare]. rewrite Z.compare_refl.
  assert (Hm : Pos.compare_cont Eq m m = Eq) by apply Pos.compare_refl.
  rewrite Hm. destruct s; reflexivity.
Qed.

(** NaN is the only value that differs from itself. *)
Lemma isna_repr (x : float) : isna x = true <-> Prim2SF x = S754_nan.
Proof.
  unfold isna, is_nan. rewrite FloatAxioms.eqb_spec. unfold SFeqb.
  destruct (Prim2SF x) as [s|s| |s m e] eqn:E.
  - cbn. split; discriminate.
  - destruct s; cbn; split; discriminate.
  - cbn. split; reflexivity.
  - rewrite SFcompare_refl_finite. cbn. split; discriminate.
Qed.

Lemma isna_eq (x : float) : isna x = true <-> x = nan.
Proof.
  rewrite isna_repr. split.
  - intros H. apply Prim2SF_inj. rewrite H. reflexivity.
  - intros ->. reflexivity.
Qed.

Lemma notna_iff (x : float) : notna x = true <-> x <> nan.
Proof.
  unfold notna. rewrite negb_true_iff, <- isna_eq.
  fold (isna x). destruct (isna x); split; congruence.
Qed.

Lemma mul_nan_l (x : float) : nan * x = nan.
Proof.
  apply Prim2SF_inj. rewrite FloatAxioms.mul_spec, nan_repr. reflexivity.
Qed.

Lemma mul_nan_r (x : float) : x * nan = nan.
Proof.
  apply Prim2SF_inj. rewrite FloatAxioms.mul_spec, nan_repr.
  destruct (Prim2SF x); reflexivity.
Qed.

Lemma div_nan_l (x : float) : nan / x = nan.
Proof.
  apply Prim2SF_inj. rewrite FloatAxioms.div_spec, nan_repr. reflexivity.
Qed.

Lemma div_nan_r (x : float) : x / nan = nan.
Proof.
  apply Prim2SF_inj. rewrite FloatAxioms.div_spec, nan_repr.
  destruct (Prim2SF x); reflexivity.
Qed.

Lemma sub_nan_l (x : float) : nan - x = nan.
Proof.
  apply Prim2SF_inj. rewrite FloatAxioms.sub_spec, nan_repr. reflexivity.
Qed.

Lemma sub_nan_r (x : float) : x - nan = nan.
Proof.
  apply Prim2SF_inj. rewrite FloatAxioms.sub_spec, nan_repr.
  destruct (Prim2SF x); reflexivity.
Qed.

Lemma add_nan_r (x : float) : x + nan = nan.
Proof.
  apply Prim2SF_inj. rewrite FloatAxioms.add_spec, nan_repr.
  destruct (Prim2SF x); reflexivity.
Qed.

Lemma abs_opp (x : float) : abs (- x) = abs x.
Proof.
  apply Prim2SF_inj. rewrite !FloatAxioms.abs_spec, FloatAxioms.opp_spec.
  destruct (Prim2SF x); reflexivity.
Qed.

(** Only the two zeros compare equal to [0.0]. *)
Lemma eqb_zero_repr (x : float) :
  (x =? 0) = true <-> exists s, Prim2SF x = S754_zero s.
Proof.
  rewrite FloatAxioms.eqb_spec. unfold SFeqb.
  change (Prim2SF 0) with (S754_zero false).
  destruct (Prim2SF x) as [s|s| |s m e]; cbn [SFcompare].
  - split; [intros _; now exists s | reflexivity].
  - split; [destruct s; discriminate | intros (s' & H); discriminate].
  - split; [discriminate | intros (s' & H); discriminate].
  - split; [destruct s; discriminate | intros (s' & H); discriminate].
Qed.

(** IEEE division by a zero: no fault, but an infinity, or NaN when the
    dividend is itself zero or NaN. *)
Lemma div_by_zero_repr (x y : float) (sy : bool) :
  Prim2SF y = S754_zero sy ->
  Prim2SF (x / y) =
    match Prim2SF x with
    | S754_nan | S754_zero _ => S754_nan
    | S754_infinity sx | S754_finite sx _ _ => S754_infinity (xorb sx sy)
    end.
Proof.
  intros Hy. rewrite FloatAxioms.div_spec, Hy.
  destruct (Prim2SF x); reflexivity.
Qed.

(** Every ordered comparison with NaN is false. *)
Lemma ltb_nan_l (x : float) : (nan <? x) = false.
Proof. rewrite FloatAxioms.ltb_spec, nan_repr. reflexivity. Qed.

Lemma ltb_nan_r (x : float) : (x <? nan) = false.
Proof.
  rewrite FloatAxioms.ltb_spec, nan_repr. unfold SFltb.
  destruct (Prim2SF x); reflexivity.
Qed.

Lemma SFcompare_Eq_sym (a b : spec_float) :
  SFcompare a b = Some Eq -> SFcompare b a = Some Eq.
Proof.
  destruct a as [sa|sa| |sa ma ea], b as [sb|sb| |sb mb eb]; cbn [SFcompare];
    try discriminate; try reflexivity;
    try (destruct sa; discriminate); try (destruct sb; discriminate).
  - destruct sa, sb; try discriminate; reflexivity.
  - intros H.
    assert (Hs : sa = sb) by (destruct sa, sb; congruence || discriminate).
    subst sb.
    assert (He : (ea ?= eb)%Z = Eq)
      by (destruct sa, (ea ?= eb)%Z; congruence || discriminate).
    rewrite He in H. apply Z.compare_eq in He. subst eb.
    assert (Hm : Pos.compare_cont Eq ma mb = Eq)
      by (destruct sa, (Pos.compare_cont Eq ma mb); cbn in H;
          congruence || discriminate).
    apply Pos.compare_eq in Hm. subst mb.
    apply SFcompare_refl_finite.
Qed.

(** Equal values are not strictly ordered, in either direction. *)
Lemma eqb_not_gt (x y : float) : (x =? y) = true -> (y <? x) = false.
Proof.
  rewrite FloatAxioms.eqb_spec, FloatAxioms.ltb_spec. unfold SFeqb, SFltb.
  destruct (SFcompare (Prim2SF x) (Prim2SF y)) as [[ | | ]|] eqn:E;
    try discriminate.
  intros _. rewrite (SFcompare_Eq_sym _ _ E). reflexivity.
Qed.

End F64Facts.

(** ** Columns computed over the index *)

Module ColumnFacts.
Import Pandas.

Lemma tabulate_length {A : Type} (n : nat) (f : nat -> A) :
  length (tabulate n f) = n.
Proof. unfold tabulate. now rewrite length_map, length_seq. Qed.

Lemma tabulate_nth {A : Type} (n : nat) (f : nat -> A) (d : A) (t : nat) :
  (t < n)%nat -> nth t (tabulate n f) d = f t.
Proof.
  intros Ht. unfold tabulate.
  rewrite (nth_indep _ d (f 0%nat)) by now rewrite length_map, length_seq.
  rewrite map_nth, seq_nth by exact Ht. reflexivity.
Qed.

Lemma tabulate_In {A : Type} (n : nat) (f : nat -> A) (x : A) :
  In x (tabulate n f) <-> exists t, (t < n)%nat /\ x = f t.
Proof.
  unfold tabulate. rewrite in_map_iff. split.
  - intros (t & Hx & Hin). apply in_seq in Hin. exists t. split; [lia | now symmetry].
  - intros (t & Ht & ->). exists t. split; [reflexivity | apply in_seq; lia].
Qed.

Lemma at_tabulate (n : nat) (f : nat -> float) (t : nat) :
  (t < n)%nat -> at_ (tabulate n f) t = f t.
Proof. apply tabulate_nth. Qed.

Lemma at_beyond (xs : Series) (t : nat) :
  (length xs <= t)%nat -> at_ xs t = nan.
Proof. apply nth_overflow. Qed.

Lemma shift_length (xs : Series) : length (shift xs) = length xs.
Proof. apply tabulate_length. Qed.

Lemma at_shift_0 (xs : Series) : at_ (shift xs) 0 = nan.
Proof.
  destruct xs as [|x xs]; [reflexivity|].
  unfold shift. rewrite at_tabulate by (cbn; lia). reflexivity.
Qed.

Lemma at_shift_S (xs : Series) (t : nat) :
  (S t < length xs)%nat -> at_ (shift xs) (S t) = at_ xs t.
Proof. intros Hlt. unfold shift. now rewrite at_tabulate. Qed.

Lemma pct_change_length (xs : Series) : length (pct_change xs) = length xs.
Proof. apply tabulate_length. Qed.

Lemma at_pct_change_0 (xs : Series) : at_ (pct_change xs) 0 = nan.
Proof.
  destruct xs as [|x xs]; [reflexivity|].
  unfold pct_change. rewrite at_tabulate by (cbn; lia).
  rewrite at_shift_0, F64Facts.div_nan_r. apply F64Facts.sub_nan_l.
Qed.

Lemma at_pct_change_S (xs : Series) (t : nat) :
  (S t < length xs)%nat ->
  at_ (pct_change xs) (S t) = at_ xs (S t) / at_ xs t - 1.
Proof.
  intros Hlt. unfold pct_change. rewrite at_tabulate by exact Hlt.
  now rewrite at_shift_S.
Qed.

Lemma rolling_mean_length (w : Z) (xs : Series) :
  length (rolling_mean w xs) = length xs.
Proof. apply tabulate_length. Qed.

(** The warm-up of a rolling mean: no value before [window] dates are in. *)
Lemma at_rolling_mean_warmup (w : Z) (xs : Series) (t : nat) :
  (Z.of_nat (S t) < w)%Z -> at_ (rolling_mean w xs) t = nan.
Proof.
  intros Hw.
  destruct (Nat.lt_ge_cases t (length xs)) as [Hlt|Hge].
  - unfold rolling_mean. rewrite at_tabulate by exact Hlt.
    assert (E : (S t <? Z.to_nat w)%nat = true) by (apply Nat.ltb_lt; lia).
    now rewrite E.
  - apply at_beyond. now rewrite rolling_mean_length.
Qed.

(** No date is reported by the exponential average before [minp]
    observations have been seen, and at most one is seen per date. *)
Lemma at_ewm_go_warmup (alpha : float) (minp : nat) (xs : Series) :
  forall (weighted : float) (nobs t : nat),
    (nobs + S t < minp)%nat ->
    at_ (ewm_go alpha minp weighted nobs xs) t = nan.
Proof.
  induction xs as [|cur rest IH]; intros weighted nobs t Hlt.
  - destruct t; reflexivity.
  - cbn [ewm_go].
    set (nobs' := if F64.notna cur then S nobs else nobs).
    assert (Hn : (nobs' <= S nobs)%nat)
      by (subst nobs'; destruct (F64.notna cur); lia).
    destruct t as [|t].
    + unfold at_. cbn [nth].
      assert (E : (minp <=? nobs')%nat = false) by (apply Nat.leb_gt; lia).
      now rewrite E.
    + unfold at_. cbn [nth]. apply IH. lia.
Qed.

Lemma at_ewm_mean_warmup (alpha : float) (min_periods : nat) (xs : Series)
    (t : nat) :
  (S t < min_periods)%nat -> at_ (ewm_mean alpha min_periods xs) t = nan.
Proof.
  intros Hlt. unfold ewm_mean.
  replace (Nat.max min_periods 1) with min_periods by lia.
  destruct xs as [|x rest]; [destruct t; reflexivity|].
  set (nobs := if F64.notna x then 1%nat else 0%nat).
  assert (Hn : (nobs <= 1)%nat) by (subst nobs; destruct (F64.notna x); lia).
  destruct t as [|t].
  - unfold at_. cbn [nth].
    assert (E : (min_periods <=? nobs)%nat = false) by (apply Nat.leb_gt; lia).
    now rewrite E.
  - unfold at_. cbn [nth]. apply at_ewm_go_warmup. lia.
Qed.

Lemma RSI_length (close : Series) (w : Z) :
  length (Ta.RSIIndicator_rsi close w) = length close.
Proof. apply tabulate_length. Qed.

(** The warm-up of the RSI: missing until [window] dates are in. *)
Lemma at_RSI_warmup (close : Series) (w : Z) (t : nat) :
  (Z.of_nat (S t) < w)%Z -> at_ (Ta.RSIIndicator_rsi close w) t = nan.
Proof.
  intros Hw.
  destruct (Nat.lt_ge_cases t (length close)) as [Hlt|Hge].
  - unfold Ta.RSIIndicator_rsi. rewrite at_tabulate by exact Hlt.
    rewrite (at_ewm_mean_warmup _ (Z.to_nat w) (map _ (diff close)) t) by lia.
    change (nan =? 0) with false. cbv iota.
    now rewrite F64Facts.div_nan_r, F64Facts.add_nan_r, F64Facts.div_nan_r, F64Facts.sub_nan_r.
  - apply at_beyond. now rewrite RSI_length.
Qed.

End ColumnFacts.

(** ** The frame built by the backtest *)

Module FrameFacts.
Import Pandas App ColumnFacts.

Lemma np_where_gt_length (sma_s sma_l : Series) :
  length (np_where_gt sma_s sma_l) = length sma_s.
Proof. apply tabulate_length. Qed.

Lemma np_where_gt_nth (sma_s sma_l : Series) (t : nat) :
  (t < length sma_s)%nat ->
  nth t (np_where_gt sma_s sma_l) 0%Z
  = if at_ sma_l t <? at_ sma_s t then 1%Z else (-1)%Z.
Proof. intros Ht. unfold np_where_gt. now rewrite tabulate_nth. Qed.

Lemma lagged_signal_length (signal : list Z) :
  length (lagged_signal signal) = length signal.
Proof. unfold lagged_signal. now rewrite shift_length, length_map. Qed.

Lemma at_lagged_signal_0 (signal : list Z) : at_ (lagged_signal signal) 0 = nan.
Proof. apply at_shift_0. Qed.

(** The lagged column holds at date [t+1] the signal of date [t]. *)
Lemma at_lagged_signal_S (signal : list Z) (t : nat) :
  (S t < length signal)%nat ->
  at_ (lagged_signal signal) (S t) = F64.of_Z (nth t signal 0%Z).
Proof.
  intros Hlt. unfold lagged_signal.
  rewrite at_shift_S by now rewrite length_map.
  unfold at_. rewrite (nth_indep _ nan (F64.of_Z 0)) by (rewrite length_map; lia).
  apply map_nth.
Qed.

Lemma at_mul_series (a b : Series) (t : nat) :
  (t < length a)%nat -> at_ (mul_series a b) t = at_ a t * at_ b t.
Proof. intros Ht. unfold mul_series. now rewrite at_tabulate. Qed.

Lemma signal_column_length (ws wl : Z) (close : Series) :
  length (signal_column ws wl close) = length close.
Proof.
  unfold signal_column. now rewrite np_where_gt_length, rolling_mean_length.
Qed.

(** A row survives [dropna] exactly when it is a row of the frame, at some
    date [t] of the index, and none of its columns is missing. *)
Lemma backtest_In (ws wl wr : Z) (close : Series) (r : Row) :
  In r (backtest ws wl wr close) <->
  exists t, (t < length close)%nat /\ row_complete r = true /\
    r = mkRow t (at_ close t)
          (at_ (rolling_mean ws close) t)
          (at_ (rolling_mean wl close) t)
          (at_ (Ta.RSIIndicator_rsi close wr) t)
          (nth t (signal_column ws wl close) 0%Z)
          (at_ (mul_series (lagged_signal (signal_column ws wl close))
                           (pct_change close)) t)
          (at_ (pct_change close) t).
Proof.
  unfold backtest, dropna, with_returns. rewrite filter_In, tabulate_In.
  fold (signal_column ws wl close).
  split.
  - intros ((t & Ht & E) & Hc). exists t. auto.
  - intros (t & Ht & Hc & E). split; [exists t; auto | exact Hc].
Qed.

Lemma row_complete_fields (r : Row) :
  row_complete r = true ->
  Close r <> nan /\ SMA_short r <> nan /\ SMA_long r <> nan /\ RSI r <> nan
  /\ Strategy_Returns r <> nan /\ Market_Returns r <> nan.
Proof.
  unfold row_complete. rewrite !andb_true_iff, !F64Facts.notna_iff. tauto.
Qed.

(** What a surviving row holds, read off the source columns: it is not the
    first date, its market return is the relative price change since the
    previous date and its strategy return is that change times the signal
    of the previous date. *)
Lemma backtest_row (ws wl wr : Z) (close : Series) (r : Row) :
  In r (backtest ws wl wr close) ->
  exists t, Date r = S t /\ (S t < length close)%nat /\
    row_complete r = true /\
    Close r = at_ close (S t) /\
    SMA_short r = at_ (rolling_mean ws close) (S t) /\
    SMA_long r = at_ (rolling_mean wl close) (S t) /\
    RSI r = at_ (Ta.RSIIndicator_rsi close wr) (S t) /\
    Signal r = nth (S t) (signal_column ws wl close) 0%Z /\
    Market_Returns r = at_ close (S t) / at_ close t - 1 /\
    Strategy_Returns r
      = F64.of_Z (nth t (signal_column ws wl close) 0%Z) * Market_Returns r.
Proof.
  intros Hin. apply backtest_In in Hin. destruct Hin as (t & Ht & Hc & E).
  pose proof (row_complete_fields r Hc) as (_ & _ & _ & _ & Hs & _).
  assert (Hlen : length (lagged_signal (signal_column ws wl close)) = length close)
    by now rewrite lagged_signal_length, signal_column_length.
  destruct t as [|t].
  - exfalso. apply Hs. rewrite E. cbn [Strategy_Returns].
    rewrite at_mul_series by now rewrite Hlen.
    rewrite at_lagged_signal_0. apply F64Facts.mul_nan_l.
  - exists t. split; [now rewrite E|]. split; [exact Ht|].
    split; [exact Hc|]. clear Hc Hs. subst r.
    cbn [Close SMA_short SMA_long RSI Signal Strategy_Returns Market_Returns].
    rewrite at_mul_series by now rewrite Hlen.
    rewrite at_lagged_signal_S by now rewrite signal_column_length.
    rewrite at_pct_change_S by exact Ht.
    repeat split; reflexivity.
Qed.

(** No strategy return of the output is missing. *)
Lemma backtest_returns_defined (ws wl wr : Z) (close : Series) :
  forallb (fun r => F64.notna (Strategy_Returns r)) (backtest ws wl wr close)
  = true.
Proof.
  apply forallb_forall. intros r Hin. apply backtest_In in Hin.
  destruct Hin as (_ & _ & Hc & _).
  apply F64Facts.notna_iff. now apply row_complete_fields in Hc.
Qed.

End FrameFacts.

(** ** The signal and the lagged strategy return *)

Module SignalClaims.
Import Pandas App ColumnFacts FrameFacts Examples.

(** C9. At every date of the frame the signal is [+1] when the short moving
    average is greater than the long one and [-1] otherwise; when the two
    averages are equal it is [-1]; it is never anything but [+1] or [-1]. *)
Theorem signal_is_crossover_sign (sma_s sma_l : Series) (t : nat) :
  (t < length sma_s)%nat ->
  let s := nth t (np_where_gt sma_s sma_l) 0%Z in
  s = (if at_ sma_l t <? at_ sma_s t then 1%Z else (-1)%Z)
  /\ ((at_ sma_s t =? at_ sma_l t) = true -> s = (-1)%Z)
  /\ (s = 1%Z \/ s = (-1)%Z).
Proof.
  intros Ht s. subst s. rewrite np_where_gt_nth by exact Ht.
  split; [reflexivity|]. split.
  - intros Heq. now rewrite (F64Facts.eqb_not_gt _ _ Heq).
  - destruct (at_ sma_l t <? at_ sma_s t); auto.
Qed.

Lemma signal_is_crossover_sign_witness :
  let s := nth 3 (np_where_gt (rolling_mean 2 closes5) (rolling_mean 3 closes5)) 0%Z in
  s = (if at_ (rolling_mean 3 closes5) 3 <? at_ (rolling_mean 2 closes5) 3
       then 1%Z else (-1)%Z)
  /\ ((at_ (rolling_mean 2 closes5) 3 =? at_ (rolling_mean 3 closes5) 3) = true
      -> s = (-1)%Z)
  /\ (s = 1%Z \/ s = (-1)%Z).
Proof.
  apply (signal_is_crossover_sign (rolling_mean 2 closes5) (rolling_mean 3 closes5) 3).
  vm_compute. lia.
Defined.

(** C2 as stated fails: at the first date of [closes22] the long average is
    missing, yet the signal holds [-1]. *)
Lemma warmup_signal_is_defined :
  F64.isna (at_ (rolling_mean (sma_long ui_min) closes22) 0) = true
  /\ nth 0 (signal_column (sma_short ui_min) (sma_long ui_min) closes22) 0%Z
     = (-1)%Z.
Proof. split; reflexivity. Qed.

(** C2, amended. At every date where the short or the long moving average
    is missing, which includes the first [long_window - 1] dates, the
    comparison is false and the signal is [-1]: the signal column is an
    integer column and is never missing. *)
Theorem signal_short_where_sma_missing (ws wl : Z) (close : Series) (t : nat) :
  (t < length close)%nat ->
  ((Z.of_nat (S t) < wl)%Z -> F64.isna (at_ (rolling_mean wl close) t) = true)
  /\ ((F64.isna (at_ (rolling_mean ws close) t)
       || F64.isna (at_ (rolling_mean wl close) t)) = true ->
      nth t (signal_column ws wl close) 0%Z = (-1)%Z).
Proof.
  intros Ht. split.
  - intros Hw. apply F64Facts.isna_eq. now apply at_rolling_mean_warmup.
  - intros Hna. unfold signal_column.
    rewrite np_where_gt_nth by now rewrite rolling_mean_length.
    apply orb_true_iff in Hna. destruct Hna as [H|H];
      apply F64Facts.isna_eq in H; rewrite H.
    + now rewrite F64Facts.ltb_nan_r.
    + now rewrite F64Facts.ltb_nan_l.
Qed.

Lemma signal_short_where_sma_missing_witness :
  ((Z.of_nat 19 < 20)%Z -> F64.isna (at_ (rolling_mean 20 closes22) 18) = true)
  /\ ((F64.isna (at_ (rolling_mean 5 closes22) 18)
       || F64.isna (at_ (rolling_mean 20 closes22) 18)) = true ->
      nth 18 (signal_column 5 20 closes22) 0%Z = (-1)%Z).
Proof.
  apply (signal_short_where_sma_missing 5 20 closes22 18).
  vm_compute. lia.
Defined.

(** C1. Every row of the output, at a date [t+1], has as market return the
    relative change of the close since date [t] and as strategy return that
    market return times the signal of date [t], the previous date.  The
    row's own signal, that of date [t+1], does not enter it: any signal
    column that agrees with the pipeline's at date [t] yields the same
    strategy return. *)
Theorem strategy_return_lags_signal (ws wl wr : Z) (close : Series) (r : Row) :
  In r (backtest ws wl wr close) ->
  exists t, Date r = S t
    /\ Market_Returns r = at_ close (S t) / at_ close t - 1
    /\ Strategy_Returns r
       = F64.of_Z (nth t (signal_column ws wl close) 0%Z) * Market_Returns r
    /\ Signal r = nth (S t) (signal_column ws wl close) 0%Z
    /\ (forall signal' : list Z,
          length signal' = length close ->
          nth t signal' 0%Z = nth t (signal_column ws wl close) 0%Z ->
          at_ (mul_series (lagged_signal signal') (pct_change close)) (S t)
          = Strategy_Returns r).
Proof.
  intros Hin. destruct (backtest_row _ _ _ _ _ Hin)
    as (t & Hd & Ht & _ & _ & _ & _ & _ & Hsig & Hm & Hs).
  exists t. repeat (split; [assumption|]).
  intros signal' Hlen Hsame.
  rewrite at_mul_series by now rewrite lagged_signal_length, Hlen.
  rewrite at_lagged_signal_S by now rewrite Hlen.
  rewrite at_pct_change_S by exact Ht.
  now rewrite Hsame, Hs, Hm.
Qed.

Lemma strategy_return_lags_signal_witness :
  exists t, Date crossing_row = S t
    /\ Market_Returns crossing_row = at_ closes5 (S t) / at_ closes5 t - 1
    /\ Strategy_Returns crossing_row
       = F64.of_Z (nth t (signal_column 2 3 closes5) 0%Z)
         * Market_Returns crossing_row
    /\ Signal crossing_row = nth (S t) (signal_column 2 3 closes5) 0%Z
    /\ (forall signal' : list Z,
          length signal' = length closes5 ->
          nth t signal' 0%Z = nth t (signal_column 2 3 closes5) 0%Z ->
          at_ (mul_series (lagged_signal signal') (pct_change closes5)) (S t)
          = Strategy_Returns crossing_row).
Proof.
  apply (strategy_return_lags_signal 2 3 2 closes5 crossing_row).
  vm_compute. left. reflexivity.
Defined.

(** C10. In every row of the output the strategy return is the market
    return or its negation, so the two have the same magnitude: the
    position is always fully long or fully short. *)
Theorem strategy_return_is_plus_or_minus_market
    (ws wl wr : Z) (close : Series) (r : Row) :
  In r (backtest ws wl wr close) ->
  (Strategy_Returns r = Market_Returns r
   \/ Strategy_Returns r = - Market_Returns r)
  /\ abs (Strategy_Returns r) = abs (Market_Returns r).
Proof.
  intros Hin. destruct (backtest_row _ _ _ _ _ Hin)
    as (t & _ & Ht & _ & _ & _ & _ & _ & _ & _ & Hs).
  assert (Hlt : (t < length (rolling_mean ws close))%nat)
    by (rewrite rolling_mean_length; lia).
  unfold signal_column in Hs. rewrite np_where_gt_nth in Hs by exact Hlt.
  destruct (at_ (rolling_mean wl close) t <? at_ (rolling_mean ws close) t).
  - change (F64.of_Z 1) with 1 in Hs. rewrite F64Facts.mul_one_l in Hs.
    rewrite Hs. auto.
  - change (F64.of_Z (-1)) with (-1) in Hs.
    rewrite F64Facts.mul_neg_one_l in Hs. rewrite Hs.
    split; [now right | apply F64Facts.abs_opp].
Qed.

Lemma strategy_return_is_plus_or_minus_market_witness :
  (Strategy_Returns crossing_row = Market_Returns crossing_row
   \/ Strategy_Returns crossing_row = - Market_Returns crossing_row)
  /\ abs (Strategy_Returns crossing_row) = abs (Market_Returns crossing_row).
Proof.
  apply (strategy_return_is_plus_or_minus_market 2 3 2 closes5 crossing_row).
  vm_compute. left. reflexivity.
Defined.

End SignalClaims.

(** ** Which dates reach the output *)

Module WarmupClaims.
Import Pandas App ColumnFacts FrameFacts Examples.

(** C3 as stated fails.  On [closes22] with windows 5, 20 and 5 the first
    output date is 19, earlier than [max 20 5 + 1] periods after the start;
    and date 1, where the lagged signal and the price change are both
    defined, is not in the output. *)
Lemma first_return_date_before_claimed_bound :
  map Date (backtest 5 20 5 closes22) = [19; 20; 21]%nat
  /\ (19 < Z.to_nat (Z.max 20 5) + 1)%nat
  /\ F64.notna (at_ (lagged_signal (signal_column 5 20 closes22)) 1) = true
  /\ F64.notna (at_ (pct_change closes22) 1) = true
  /\ ~ In 1%nat (map Date (backtest 5 20 5 closes22)).
Proof.
  split; [reflexivity|]. split; [vm_compute; lia|].
  split; [reflexivity|]. split; [reflexivity|].
  vm_compute. intuition discriminate.
Qed.

(** C3, amended. The output holds exactly the rows of the frame in which no
    column is missing (the close, both moving averages, the RSI, the
    strategy return and the market return), unchanged; the others are
    removed, not filled.  Hence an output date is never the first date and
    lies at least [max(short, long, rsi) - 1] periods after the start. *)
Theorem returns_exactly_complete_rows (ws wl wr : Z) (close : Series) (r : Row) :
  (In r (backtest ws wl wr close) <->
   In r (with_returns close (rolling_mean ws close) (rolling_mean wl close)
           (Ta.RSIIndicator_rsi close wr))
   /\ row_complete r = true)
  /\ (In r (backtest ws wl wr close) ->
      (1 <= Date r)%nat
      /\ (Z.max ws (Z.max wl wr) - 1 <= Z.of_nat (Date r))%Z).
Proof.
  split; [apply filter_In|].
  intros Hin. destruct (backtest_row _ _ _ _ _ Hin)
    as (t & Hd & Ht & Hc & _ & Hss & Hsl & Hrsi & _).
  pose proof (row_complete_fields r Hc) as (_ & Hns & Hnl & Hnr & _).
  rewrite Hd. split; [lia|].
  destruct (Z.lt_ge_cases (Z.of_nat (S (S t))) ws) as [H|H];
    [exfalso; apply Hns; rewrite Hss; now apply at_rolling_mean_warmup|].
  destruct (Z.lt_ge_cases (Z.of_nat (S (S t))) wl) as [H1|H1];
    [exfalso; apply Hnl; rewrite Hsl; now apply at_rolling_mean_warmup|].
  destruct (Z.lt_ge_cases (Z.of_nat (S (S t))) wr) as [H2|H2];
    [exfalso; apply Hnr; rewrite Hrsi; now apply at_RSI_warmup|].
  lia.
Qed.

(** C4. A price table shorter than the long window leaves no row after
    [dropna], and [main] then stops on the [IndexError] of [iloc[-1]]
    instead of reporting metrics. *)
Theorem short_history_raises_IndexError (ui : Sidebar) (close : Series) :
  close <> [] ->
  (Z.of_nat (length close) < sma_long ui)%Z ->
  main ui close = Raised IndexError.
Proof.
  intros Hne Hshort.
  assert (E : backtest (sma_short ui) (sma_long ui) (rsi_period ui) close = []).
  { destruct (backtest _ _ _ close) as [|r rest] eqn:Hb; [reflexivity|].
    exfalso.
    assert (Hin : In r (backtest (sma_short ui) (sma_long ui) (rsi_period ui) close))
      by (rewrite Hb; now left).
    destruct (backtest_row _ _ _ _ _ Hin)
      as (t & _ & Ht & Hc & _ & _ & Hsl & _).
    pose proof (row_complete_fields r Hc) as (_ & _ & Hnl & _).
    apply Hnl. rewrite Hsl. apply at_rolling_mean_warmup. lia. }
  unfold main. destruct close as [|c rest]; [contradiction|].
  rewrite E. reflexivity.
Qed.

Lemma short_history_raises_IndexError_witness :
  main default_ui closes5 = Raised IndexError.
Proof.
  apply (short_history_raises_IndexError default_ui closes5).
  - discriminate.
  - vm_compute. reflexivity.
Defined.




End WarmupClaims.

(** ** Cumulative curves and summary metrics *)

Module PerformanceFacts.
Import Pandas App ColumnFacts.

Lemma cumprod_from_length (xs : Series) :
  forall acc, length (cumprod_from acc xs) = length xs.
Proof. induction xs as [|x rest IH]; intros acc; cbn; [|rewrite IH]; reflexivity. Qed.

Lemma cumprod_length (xs : Series) : length (cumprod xs) = length xs.
Proof. destruct xs; cbn; [|rewrite cumprod_from_length]; reflexivity. Qed.

Lemma at_cumprod_from (xs : Series) :
  forall (acc : float) (t : nat),
    (t < length xs)%nat ->
    at_ (cumprod_from acc xs) t = fold_left PrimFloat.mul (firstn (S t) xs) acc.
Proof.
  induction xs as [|x rest IH]; intros acc t Ht; [cbn in Ht; lia|].
  destruct t as [|t].
  - reflexivity.
  - cbn [cumprod_from]. unfold at_. cbn [nth]. fold (at_ (cumprod_from (acc * x) rest) t).
    rewrite IH by (cbn in Ht; lia). reflexivity.
Qed.

(** The running product is the product of the prefix, started at 1.0. *)
Lemma at_cumprod (xs : Series) (t : nat) :
  (t < length xs)%nat ->
  at_ (cumprod xs) t = fold_left PrimFloat.mul (firstn (S t) xs) 1.
Proof.
  intros Ht. destruct xs as [|x rest]; [cbn in Ht; lia|].
  change (firstn (S t) (x :: rest)) with (x :: firstn t rest).
  cbn [fold_left]. rewrite F64Facts.mul_one_l.
  destruct t as [|t]; [reflexivity|].
  cbn [cumprod]. unfold at_. cbn [nth]. fold (at_ (cumprod_from x rest) t).
  apply at_cumprod_from. cbn in Ht. lia.
Qed.

Lemma iloc_last_at (xs : Series) :
  xs <> [] -> iloc_last xs = Some (at_ xs (length xs - 1)).
Proof. destruct xs; [contradiction | reflexivity]. Qed.

Lemma iloc_last_cumprod (xs : Series) :
  xs <> [] -> iloc_last (cumprod xs) = Some (fold_left PrimFloat.mul xs 1).
Proof.
  intros Hne.
  assert (Hlen : (0 < length xs)%nat) by (destruct xs; [contradiction | cbn; lia]).
  rewrite iloc_last_at by (destruct xs; [contradiction | discriminate]).
  rewrite cumprod_length, at_cumprod by lia.
  replace (S (length xs - 1)) with (length xs) by lia.
  now rewrite firstn_all.
Qed.




(** [performance] reports metrics as soon as the frame has a row. *)
Lemma performance_rendered (data : list Row) :
  data <> [] ->
  let returns := map Strategy_Returns data in
  performance data =
    Rendered data
      (cumprod (map (fun r => 1 + Market_Returns r) data))
      (cumprod (map (fun r => 1 + Strategy_Returns r) data))
      (mkMetrics
         (fold_left PrimFloat.mul (map (fun r => 1 + Strategy_Returns r) data) 1 - 1)
         (mean returns * 252)
         ((mean returns / std returns) * sqrt 252)).
Proof.
  intros Hne returns. unfold performance.
  rewrite iloc_last_cumprod by (destruct data; [contradiction | discriminate]).
  reflexivity.
Qed.

(** The Sharpe quotient over a zero deviation: never a fault, NaN for a
    zero or missing mean, an infinity otherwise. *)
Lemma quotient_over_zero_deviation (m sd : float) :
  (sd =? 0) = true ->
  let s := (m / sd) * sqrt 252 in
  (s = nan \/ s = infinity \/ s = neg_infinity)
  /\ ((m =? 0) = true -> s = nan)
  /\ (m <> nan -> (m =? 0) = false -> s = infinity \/ s = neg_infinity).
Proof.
  intros Hsd s. apply F64Facts.eqb_zero_repr in Hsd. destruct Hsd as (sy & Hsd).
  assert (Hc : exists mc ec, Prim2SF (sqrt 252) = S754_finite false mc ec)
    by (vm_compute; eauto).
  destruct Hc as (mc & ec & Hc).
  assert (Hs : Prim2SF s = SF64mul (Prim2SF (m / sd)) (S754_finite false mc ec))
    by (subst s; now rewrite FloatAxioms.mul_spec, Hc).
  rewrite (F64Facts.div_by_zero_repr m sd sy Hsd) in Hs.
  assert (Hnan : Prim2SF s = S754_nan -> s = nan)
    by (intros H; apply Prim2SF_inj; now rewrite H).
  assert (Hinf : forall b, Prim2SF s = S754_infinity b ->
                           s = infinity \/ s = neg_infinity).
  { intros b H. destruct b; [right | left]; apply Prim2SF_inj; now rewrite H. }
  destruct (Prim2SF m) as [sm|sm| |sm mm em] eqn:Hm; cbn in Hs.
  - (* zero mean *)
    split; [left; auto|]. split; [auto|].
    intros _ Hz. exfalso.
    assert (Hz' : (m =? 0) = true) by (apply F64Facts.eqb_zero_repr; eauto).
    congruence.
  - split; [right; eauto|]. split; [|eauto].
    intros Hz. apply F64Facts.eqb_zero_repr in Hz. destruct Hz as (s0 & Hz).
    congruence.
  - split; [left; auto|]. split; [auto|].
    intros Hn. exfalso. apply Hn. apply Prim2SF_inj. now rewrite Hm.
  - split; [right; eauto|]. split; [|eauto].
    intros Hz. apply F64Facts.eqb_zero_repr in Hz. destruct Hz as (s0 & Hz).
    congruence.
Qed.

End PerformanceFacts.

Module PerformanceClaims.
Import Pandas App ColumnFacts PerformanceFacts Examples.

(** C7. On a non-empty sequence of return records the two cumulative
    columns are running products: at each date the product, started at
    1.0, of [1 + return] over the records up to that date; and the total
    return is the last value of the strategy curve minus one, the product
    over all strategy returns minus one. *)
Theorem cumulative_curves_are_running_products (data : list Row) :
  data <> [] ->
  exists Market Strategy m,
    performance data = Rendered data Market Strategy m
    /\ (forall t, (t < length data)%nat ->
          at_ Market t = Spec.compounded (map Market_Returns data) t
          /\ at_ Strategy t = Spec.compounded (map Strategy_Returns data) t)
    /\ total_ret m = at_ Strategy (length data - 1) - 1
    /\ total_ret m = Spec.compounded_all (map Strategy_Returns data) - 1.
Proof.
  intros Hne. do 3 eexists. split; [apply performance_rendered; exact Hne|].
  assert (Hpre : forall (f : Row -> float) t, (t < length data)%nat ->
            at_ (cumprod (map (fun r => 1 + f r) data)) t
            = Spec.compounded (map f data) t).
  { intros f t Ht. rewrite at_cumprod by now rewrite length_map.
    unfold Spec.compounded. now rewrite <- !firstn_map, map_map. }
  split; [intros t Ht; split; apply Hpre; exact Ht|].
  cbn [total_ret]. unfold Spec.compounded_all. rewrite map_map.
  split; [|reflexivity].
  assert (Hlen : (0 < length data)%nat) by (destruct data; [contradiction | cbn; lia]).
  rewrite Hpre by lia. unfold Spec.compounded.
  replace (S (length data - 1)) with (length (map Strategy_Returns data))
    by (rewrite length_map; lia).
  now rewrite firstn_all, map_map.
Qed.

Lemma cumulative_curves_are_running_products_witness :
  exists Market Strategy m,
    performance frame5 = Rendered frame5 Market Strategy m
    /\ (forall t, (t < length frame5)%nat ->
          at_ Market t = Spec.compounded (map Market_Returns frame5) t
          /\ at_ Strategy t = Spec.compounded (map Strategy_Returns frame5) t)
    /\ total_ret m = at_ Strategy (length frame5 - 1) - 1
    /\ total_ret m = Spec.compounded_all (map Strategy_Returns frame5) - 1.
Proof.
  apply (cumulative_curves_are_running_products frame5).
  unfold frame5. discriminate.
Defined.



(** C5 as stated fails.  The strategy returns of [closes22] are three times
    0.5, their sample standard deviation is zero, and the Sharpe ratio the
    dashboard reports is infinity. *)
Lemma constant_returns_sharpe_infinite :
  map Strategy_Returns frame22 = [0.5; 0.5; 0.5]
  /\ std [0.5; 0.5; 0.5] = 0
  /\ main ui_min closes22
     = Rendered frame22 [0.5; 0.25; 0.125] [1.5; 2.25; 3.375]
         (mkMetrics 2.375 126 infinity).
Proof. repeat split; vm_compute; reflexivity. Qed.

(** C5, amended. On a sequence of return records with a single element or
    with zero sample standard deviation, the metrics are reported without
    any fault and the Sharpe ratio is NaN or an infinity: NaN for a single
    record, NaN when the deviation and the mean are both zero, and plus or
    minus infinity when the deviation is zero and the mean is not. *)
Theorem sharpe_zero_deviation (data : list Row) :
  data <> [] ->
  let returns := map Strategy_Returns data in
  length data = 1%nat \/ (std returns =? 0) = true ->
  exists Market Strategy m,
    performance data = Rendered data Market Strategy m
    /\ (sharpe m = nan \/ sharpe m = infinity \/ sharpe m = neg_infinity)
    /\ (length data = 1%nat -> sharpe m = nan)
    /\ ((std returns =? 0) = true -> (mean returns =? 0) = true ->
        sharpe m = nan)
    /\ ((std returns =? 0) = true -> mean returns <> nan ->
        (mean returns =? 0) = false ->
        sharpe m = infinity \/ sharpe m = neg_infinity).
Proof.
  intros Hne returns Hcase.
  do 3 eexists. split; [apply performance_rendered; exact Hne|].
  cbn [sharpe]. fold returns.
  assert (Hone : length data = 1%nat ->
                 (mean returns / std returns) * sqrt 252 = nan).
  { intros H1. unfold std, var.
    assert (Hle : (length (filter F64.notna returns) <=? 1)%nat = true).
    { apply Nat.leb_le. subst returns.
      pose proof (filter_length_le F64.notna (map Strategy_Returns data)) as Hf.
      rewrite length_map in Hf. lia. }
    rewrite Hle. change (sqrt nan) with nan.
    now rewrite F64Facts.div_nan_r, F64Facts.mul_nan_l. }
  split.
  - destruct Hcase as [H1|Hz]; [left; auto|].
    apply (quotient_over_zero_deviation (mean returns) (std returns) Hz).
  - split; [exact Hone|]. split.
    + intros Hz. apply (quotient_over_zero_deviation _ _ Hz).
    + intros Hz. apply (quotient_over_zero_deviation _ _ Hz).
Qed.

Lemma sharpe_zero_deviation_witness :
  let returns := map Strategy_Returns frame22 in
  exists Market Strategy m,
    performance frame22 = Rendered frame22 Market Strategy m
    /\ (sharpe m = nan \/ sharpe m = infinity \/ sharpe m = neg_infinity)
    /\ (length frame22 = 1%nat -> sharpe m = nan)
    /\ ((std returns =? 0) = true -> (mean returns =? 0) = true ->
        sharpe m = nan)
    /\ ((std returns =? 0) = true -> mean returns <> nan ->
        (mean returns =? 0) = false ->
        sharpe m = infinity \/ sharpe m = neg_infinity).
Proof.
  apply (sharpe_zero_deviation frame22).
  - unfold frame22. discriminate.
  - right. vm_compute. reflexivity.
Defined.

End PerformanceClaims.

(** ** Loading, and what a run ends in *)

Module LoaderFacts.
Import Pandas App Loader ColumnFacts FrameFacts.

(** [load_data] keeps only rows without a missing cell, so the close column
    handed to the backtest has no missing value; loading what was already
    loaded changes nothing. *)
Theorem load_data_complete (downloaded : list Bar) :
  Forall (fun c => c <> nan) (Close_column (load_data downloaded))
  /\ Forall (fun b => Forall (fun c => c <> nan) (other_columns b))
            (load_data downloaded)
  /\ load_data (load_data downloaded) = load_data downloaded.
Proof.
  unfold load_data, Close_column. split; [|split].
  - apply Forall_map, Forall_forall. intros b Hb.
    apply filter_In in Hb. destruct Hb as [_ Hc].
    apply andb_true_iff in Hc. now apply F64Facts.notna_iff.
  - apply Forall_forall. intros b Hb.
    apply filter_In in Hb. destruct Hb as [_ Hc].
    apply andb_true_iff in Hc. destruct Hc as [_ Hc].
    apply Forall_forall. intros c Hin. rewrite forallb_forall in Hc.
    apply F64Facts.notna_iff. now apply Hc.
  - apply forallb_filter_id, forallb_filter.
Qed.

(** The run ends on the no-data message exactly when every downloaded row
    has a missing cell (in particular when nothing was downloaded). *)
Theorem dashboard_no_data_iff (ui : Sidebar) (downloaded : list Bar) :
  dashboard ui downloaded = NoData
  <-> Forall (fun b => bar_complete b = false) downloaded.
Proof.
  unfold dashboard, load_data, Close_column.
  induction downloaded as [|b rest IH].
  - split; [constructor | reflexivity].
  - cbn [filter]. destruct (bar_complete b) eqn:Hb.
    + split.
      * cbn [map main]. unfold performance.
        destruct (iloc_last _); discriminate.
      * intros H. inversion H; subst. congruence.
    + rewrite IH. split.
      * intros H. constructor; assumption.
      * intros H. now inversion H.
Qed.



End LoaderFacts.

(** ** Invariants of the output frame *)

Module FrameInvariants.
Import Pandas App ColumnFacts FrameFacts Examples.

(** In every row of the output no column is missing, and the row's signal
    agrees with its own two averages: it is [+1] exactly when the short
    average of that row is greater than the long one, [-1] otherwise. *)
Theorem output_rows_complete_and_consistent
    (ws wl wr : Z) (close : Series) (r : Row) :
  In r (backtest ws wl wr close) ->
  Close r <> nan /\ SMA_short r <> nan /\ SMA_long r <> nan /\ RSI r <> nan
  /\ Strategy_Returns r <> nan /\ Market_Returns r <> nan
  /\ Signal r = (if SMA_long r <? SMA_short r then 1%Z else (-1)%Z).
Proof.
  intros Hin. destruct (backtest_row _ _ _ _ _ Hin)
    as (t & _ & Ht & Hc & _ & Hss & Hsl & _ & Hsig & _).
  pose proof (row_complete_fields r Hc) as (H1 & H2 & H3 & H4 & H5 & H6).
  repeat (split; [assumption|]).
  rewrite Hsig, Hss, Hsl. unfold signal_column.
  apply np_where_gt_nth. now rewrite rolling_mean_length.
Qed.

Lemma output_rows_complete_and_consistent_witness :
  Close crossing_row <> nan /\ SMA_short crossing_row <> nan
  /\ SMA_long crossing_row <> nan /\ RSI crossing_row <> nan
  /\ Strategy_Returns crossing_row <> nan /\ Market_Returns crossing_row <> nan
  /\ Signal crossing_row
     = (if SMA_long crossing_row <? SMA_short crossing_row then 1%Z else (-1)%Z).
Proof.
  apply (output_rows_complete_and_consistent 2 3 2 closes5 crossing_row).
  vm_compute. left. reflexivity.
Defined.

Lemma StronglySorted_filter {A : Type} (R : A -> A -> Prop) (p : A -> bool)
    (l : list A) :
  StronglySorted R l -> StronglySorted R (filter p l).
Proof.
  induction 1 as [|a l Hs IH Hall]; [constructor|].
  cbn [filter]. destruct (p a); [|exact IH].
  constructor; [exact IH|].
  apply Forall_forall. intros x Hx. apply filter_In in Hx.
  rewrite Forall_forall in Hall. now apply Hall.
Qed.

Lemma StronglySorted_seq (a n : nat) : StronglySorted lt (seq a n).
Proof.
  revert a. induction n as [|n IH]; intros a; [constructor|].
  cbn [seq]. constructor; [apply IH|].
  apply Forall_forall. intros x Hx. apply in_seq in Hx. lia.
Qed.

(** The dates of the rows that [dropna] keeps, as a selection of the index. *)
Lemma backtest_dates (ws wl wr : Z) (close : Series) :
  exists keep : nat -> bool,
    map Date (backtest ws wl wr close) = filter keep (seq 0 (length close)).
Proof.
  unfold backtest, dropna, with_returns, tabulate.
  rewrite filter_map_swap, map_map. cbn [Date]. rewrite map_id.
  eexists. reflexivity.
Qed.

(** [dropna] keeps the rows in date order: the dates of the output are
    strictly increasing (so no date occurs twice) and are dates of the
    price table. *)
Theorem output_dates_increasing (ws wl wr : Z) (close : Series) :
  StronglySorted lt (map Date (backtest ws wl wr close))
  /\ Forall (fun d => (d < length close)%nat) (map Date (backtest ws wl wr close)).
Proof.
  destruct (backtest_dates ws wl wr close) as (keep & E). rewrite E. split.
  - apply StronglySorted_filter, StronglySorted_seq.
  - apply Forall_forall. intros d Hd. apply filter_In in Hd.
    destruct Hd as [Hd _]. apply in_seq in Hd. lia.
Qed.

Lemma sorted_bounded_length (l : list nat) :
  StronglySorted lt l ->
  forall lo hi, Forall (fun d => (lo <= d < hi)%nat) l -> (length l <= hi - lo)%nat.
Proof.
  induction 1 as [|d l Hs IH Hall]; intros lo hi Hb; [cbn; lia|].
  inversion Hb as [|? ? Hd Hrest]; subst.
  assert (Hl : (length l <= hi - S d)%nat).
  { apply IH. rewrite Forall_forall in *. intros x Hx.
    specialize (Hall x Hx). specialize (Hrest x Hx). lia. }
  cbn [length]. lia.
Qed.

(** The warm-up shortens the history: the output has at most
    [n - max(1, short - 1, long - 1, rsi - 1)] rows for a table of [n]
    dates, and none when the table is not longer than that. *)
Theorem output_length_bound (ws wl wr : Z) (close : Series) :
  (length (backtest ws wl wr close)
   <= length close - Nat.max 1 (Z.to_nat (Z.max ws (Z.max wl wr) - 1)))%nat.
Proof.
  rewrite <- (length_map Date).
  apply sorted_bounded_length; [apply output_dates_increasing|].
  apply Forall_forall. intros d Hd. apply in_map_iff in Hd.
  destruct Hd as (r & <- & Hin).
  destruct (backtest_row _ _ _ _ _ Hin)
    as (t & Hd & Ht & Hc & _ & Hss & Hsl & Hrsi & _).
  pose proof (row_complete_fields r Hc) as (_ & Hns & Hnl & Hnr & _).
  rewrite Hd. split; [|exact Ht].
  destruct (Z.lt_ge_cases (Z.of_nat (S (S t))) ws) as [H|H];
    [exfalso; apply Hns; rewrite Hss; now apply at_rolling_mean_warmup|].
  destruct (Z.lt_ge_cases (Z.of_nat (S (S t))) wl) as [H1|H1];
    [exfalso; apply Hnl; rewrite Hsl; now apply at_rolling_mean_warmup|].
  destruct (Z.lt_ge_cases (Z.of_nat (S (S t))) wr) as [H2|H2];
    [exfalso; apply Hnr; rewrite Hrsi; now apply at_RSI_warmup|].
  lia.
Qed.

(** The first usable row always earns a short position: a row dated before
    the larger of the two average windows has elapsed (that is, the row of
    date [max(short, long) - 1]) takes the signal of a warm-up date, which
    is [-1], so its strategy return is the negated market return whatever
    the prices. *)
Theorem first_row_is_short (ws wl wr : Z) (close : Series) (r : Row) :
  In r (backtest ws wl wr close) ->
  (Z.of_nat (Date r) < Z.max ws wl)%Z ->
  Strategy_Returns r = - Market_Returns r.
Proof.
  intros Hin Hearly. destruct (backtest_row _ _ _ _ _ Hin)
    as (t & Hd & Ht & _ & _ & _ & _ & _ & _ & _ & Hs).
  rewrite Hd in Hearly.
  assert (Hsig : nth t (signal_column ws wl close) 0%Z = (-1)%Z).
  { unfold signal_column.
    rewrite np_where_gt_nth by (rewrite rolling_mean_length; lia).
    destruct (Z.lt_ge_cases (Z.of_nat (S t)) wl) as [H|H].
    - rewrite (at_rolling_mean_warmup wl close t H).
      now rewrite F64Facts.ltb_nan_l.
    - rewrite (at_rolling_mean_warmup ws close t) by lia.
      now rewrite F64Facts.ltb_nan_r. }
  rewrite Hs, Hsig. change (F64.of_Z (-1)) with (-1).
  apply F64Facts.mul_neg_one_l.
Qed.

Lemma first_row_is_short_witness :
  Strategy_Returns first_row22 = - Market_Returns first_row22.
Proof.
  apply (first_row_is_short 5 20 5 closes22 first_row22).
  - vm_compute. left. reflexivity.
  - vm_compute. reflexivity.
Defined.

End FrameInvariants.

(** ** The backtest on a truncated history *)

Module PrefixFacts.
Import Pandas App ColumnFacts FrameFacts.

Lemma firstn_seq_min (n a m : nat) : firstn n (seq a m) = seq a (Nat.min n m).
Proof.
  revert a m. induction n as [|n IH]; intros a m; [reflexivity|].
  destruct m as [|m]; [reflexivity|].
  cbn [seq firstn Nat.min]. now rewrite IH.
Qed.

Lemma tabulate_ext {A : Type} (n : nat) (f g : nat -> A) :
  (forall t, (t < n)%nat -> f t = g t) -> tabulate n f = tabulate n g.
Proof.
  intros H. unfold tabulate. apply map_ext_in. intros t Ht.
  apply in_seq in Ht. apply H. lia.
Qed.

(** A column computed over a shorter index from values that agree on it is
    the beginning of the column computed over the whole index. *)
Lemma tabulate_prefix {A : Type} (n m : nat) (f' f : nat -> A) :
  (forall t, (t < n)%nat -> (t < m)%nat -> f' t = f t) ->
  tabulate (Nat.min n m) f' = firstn n (tabulate m f).
Proof.
  intros H. unfold tabulate at 2. rewrite firstn_map, firstn_seq_min.
  apply tabulate_ext. intros t Ht. apply H; lia.
Qed.

Lemma at_firstn (xs : Series) (n t : nat) :
  (t < n)%nat -> at_ (firstn n xs) t = at_ xs t.
Proof.
  intros Ht. unfold at_. rewrite nth_firstn.
  apply Nat.ltb_lt in Ht. now rewrite Ht.
Qed.

Lemma shift_firstn (n : nat) (xs : Series) :
  shift (firstn n xs) = firstn n (shift xs).
Proof.
  unfold shift. rewrite length_firstn. apply tabulate_prefix.
  intros [|p] Hn Hm; [reflexivity|]. apply at_firstn. lia.
Qed.

Lemma diff_firstn (n : nat) (xs : Series) :
  diff (firstn n xs) = firstn n (diff xs).
Proof.
  unfold diff. rewrite length_firstn. apply tabulate_prefix.
  intros t Hn Hm. now rewrite shift_firstn, !at_firstn.
Qed.

Lemma pct_change_firstn (n : nat) (xs : Series) :
  pct_change (firstn n xs) = firstn n (pct_change xs).
Proof.
  unfold pct_change. rewrite length_firstn. apply tabulate_prefix.
  intros t Hn Hm. now rewrite shift_firstn, !at_firstn.
Qed.

Lemma mul_series_firstn (n : nat) (a b : Series) :
  mul_series (firstn n a) (firstn n b) = firstn n (mul_series a b).
Proof.
  unfold mul_series. rewrite length_firstn. apply tabulate_prefix.
  intros t Hn Hm. now rewrite !at_firstn.
Qed.

(** The trailing window of a date lies within any prefix that contains
    the date. *)
Lemma rolling_mean_firstn (w : Z) (n : nat) (xs : Series) :
  rolling_mean w (firstn n xs) = firstn n (rolling_mean w xs).
Proof.
  unfold rolling_mean. rewrite length_firstn. apply tabulate_prefix.
  intros t Hn Hm.
  destruct (S t <? Z.to_nat w)%nat eqn:Hw; [reflexivity|].
  apply Nat.ltb_ge in Hw.
  rewrite skipn_firstn_comm, firstn_firstn.
  replace (Nat.min (Z.to_nat w) (n - (S t - Z.to_nat w))) with (Z.to_nat w) by lia.
  reflexivity.
Qed.

Lemma ewm_go_firstn (alpha : float) (minp n : nat) (xs : Series) :
  forall weighted nobs,
    ewm_go alpha minp weighted nobs (firstn n xs)
    = firstn n (ewm_go alpha minp weighted nobs xs).
Proof.
  revert xs. induction n as [|n IH]; intros xs weighted nobs; [reflexivity|].
  destruct xs as [|cur rest]; [reflexivity|].
  cbn [firstn ewm_go]. now rewrite IH.
Qed.

Lemma ewm_mean_firstn (alpha : float) (min_periods n : nat) (xs : Series) :
  ewm_mean alpha min_periods (firstn n xs)
  = firstn n (ewm_mean alpha min_periods xs).
Proof.
  destruct n as [|n]; [reflexivity|].
  destruct xs as [|x rest]; [reflexivity|].
  unfold ewm_mean. cbn [firstn]. now rewrite ewm_go_firstn.
Qed.

Lemma RSI_firstn (w : Z) (n : nat) (close : Series) :
  Ta.RSIIndicator_rsi (firstn n close) w
  = firstn n (Ta.RSIIndicator_rsi close w).
Proof.
  unfold Ta.RSIIndicator_rsi. rewrite length_firstn. apply tabulate_prefix.
  intros t Hn Hm.
  rewrite diff_firstn, <- !firstn_map, !ewm_mean_firstn, !at_firstn by exact Hn.
  reflexivity.
Qed.

Lemma np_where_gt_firstn (n : nat) (sma_s sma_l : Series) :
  np_where_gt (firstn n sma_s) (firstn n sma_l)
  = firstn n (np_where_gt sma_s sma_l).
Proof.
  unfold np_where_gt. rewrite length_firstn. apply tabulate_prefix.
  intros t Hn Hm. now rewrite !at_firstn.
Qed.

Lemma lagged_signal_firstn (n : nat) (signal : list Z) :
  lagged_signal (firstn n signal) = firstn n (lagged_signal signal).
Proof. unfold lagged_signal. now rewrite <- firstn_map, shift_firstn. Qed.

Lemma with_returns_firstn (n : nat) (close sma_s sma_l rsi : Series) :
  with_returns (firstn n close) (firstn n sma_s) (firstn n sma_l) (firstn n rsi)
  = firstn n (with_returns close sma_s sma_l rsi).
Proof.
  unfold with_returns. rewrite length_firstn. apply tabulate_prefix.
  intros t Hn Hm.
  rewrite np_where_gt_firstn, lagged_signal_firstn, pct_change_firstn,
    mul_series_firstn, !at_firstn by exact Hn.
  rewrite nth_firstn. apply Nat.ltb_lt in Hn. now rewrite Hn.
Qed.

Lemma filter_lt_seq (n a m : nat) :
  filter (fun t => (t <? n)%nat) (seq a m) = seq a (Nat.min (n - a) m).
Proof.
  revert a. induction m as [|m IH]; intros a; [now rewrite Nat.min_0_r|].
  cbn [seq filter]. rewrite IH.
  destruct (a <? n)%nat eqn:E.
  - apply Nat.ltb_lt in E.
    replace (n - a)%nat with (S (n - S a)) by lia. reflexivity.
  - apply Nat.ltb_ge in E.
    replace (n - a)%nat with 0%nat by lia.
    replace (n - S a)%nat with 0%nat by lia. reflexivity.
Qed.

(** The first [n] rows of the frame are its rows dated before [n]. *)
Lemma firstn_with_returns_dates (n : nat) (close sma_s sma_l rsi : Series) :
  firstn n (with_returns close sma_s sma_l rsi)
  = filter (fun r => (Date r <? n)%nat) (with_returns close sma_s sma_l rsi).
Proof.
  unfold with_returns, tabulate.
  rewrite firstn_map, firstn_seq_min, filter_map_swap. cbn [Date].
  now rewrite filter_lt_seq, Nat.sub_0_r.
Qed.

Lemma filter_swap {A : Type} (p q : A -> bool) (l : list A) :
  filter p (filter q l) = filter q (filter p l).
Proof.
  induction l as [|a l IH]; [reflexivity|].
  cbn [filter]. destruct (p a) eqn:Hp, (q a) eqn:Hq; cbn [filter];
    rewrite ?Hp, ?Hq, IH; reflexivity.
Qed.

End PrefixFacts.

Module NoLookAhead.
Import Pandas App PrefixFacts Examples.

(** No look-ahead: the backtest of the first [n] dates of a price table
    yields exactly the rows dated before [n] of the backtest of the whole
    table.  No value of a row depends on a later close. *)
Theorem backtest_of_prefix (ws wl wr : Z) (close : Series) (n : nat) :
  backtest ws wl wr (firstn n close)
  = filter (fun r => (Date r <? n)%nat) (backtest ws wl wr close).
Proof.
  unfold backtest, dropna.
  rewrite !rolling_mean_firstn, RSI_firstn, with_returns_firstn.
  rewrite firstn_with_returns_dates. apply filter_swap.
Qed.

End NoLookAhead.

(** ** Compounding step by step *)

Module CurveFacts.
Import Pandas App ColumnFacts PerformanceFacts Examples.

Lemma at_cumprod_from_0 (acc : float) (xs : Series) :
  xs <> [] -> at_ (cumprod_from acc xs) 0 = acc * at_ xs 0.
Proof. destruct xs; [contradiction | reflexivity]. Qed.

Lemma at_cumprod_from_S (xs : Series) :
  forall (acc : float) (t : nat),
    (S t < length xs)%nat ->
    at_ (cumprod_from acc xs) (S t)
    = at_ (cumprod_from acc xs) t * at_ xs (S t).
Proof.
  induction xs as [|x rest IH]; intros acc t Ht; [cbn in Ht; lia|].
  cbn [cumprod_from]. unfold at_ at 1 2 3. cbn [nth].
  fold (at_ (cumprod_from (acc * x) rest) t). fold (at_ rest t).
  destruct t as [|t].
  - apply at_cumprod_from_0. destruct rest; [cbn in Ht; lia | discriminate].
  - fold (at_ (cumprod_from (acc * x) rest) (S t)).
    unfold at_ at 2. cbn [nth]. fold (at_ (cumprod_from (acc * x) rest) t).
    apply IH. cbn in Ht. lia.
Qed.

(** Each value of a running product is the previous one times the next
    factor. *)
Lemma at_cumprod_S (xs : Series) (t : nat) :
  (S t < length xs)%nat ->
  at_ (cumprod xs) (S t) = at_ (cumprod xs) t * at_ xs (S t).
Proof.
  intros Ht. destruct xs as [|x rest]; [cbn in Ht; lia|].
  cbn [cumprod]. unfold at_ at 1 3. cbn [nth].
  fold (at_ (cumprod_from x rest) t). fold (at_ rest t).
  destruct t as [|t].
  - unfold at_ at 2. cbn [nth]. apply at_cumprod_from_0.
    destruct rest; [cbn in Ht; lia | discriminate].
  - unfold at_ at 2. cbn [nth]. fold (at_ (cumprod_from x rest) t).
    apply at_cumprod_from_S. cbn in Ht. lia.
Qed.

Lemma at_map_plus_one (f : Row -> float) (data : list Row) (t : nat) :
  (t < length data)%nat ->
  at_ (map (fun r => 1 + f r) data) t = 1 + at_ (map f data) t.
Proof.
  intros Ht. unfold at_.
  rewrite (nth_indep _ nan (1 + f (nth t data (mkRow 0 0 0 0 0 0 0 0))))
    by now rewrite length_map.
  rewrite (nth_indep (map f data) nan (f (nth t data (mkRow 0 0 0 0 0 0 0 0))))
    by now rewrite length_map.
  now rewrite (map_nth (fun r => 1 + f r)), (map_nth f).
Qed.

(** The two cumulative columns are aligned with the frame, start at one
    plus the first return, and grow at each date by the factor one plus the
    return of that date. *)
Theorem curves_compound_stepwise (data : list Row) :
  data <> [] ->
  exists Market Strategy m,
    performance data = Rendered data Market Strategy m
    /\ length Market = length data /\ length Strategy = length data
    /\ at_ Market 0 = 1 + at_ (map Market_Returns data) 0
    /\ at_ Strategy 0 = 1 + at_ (map Strategy_Returns data) 0
    /\ (forall t, (S t < length data)%nat ->
          at_ Market (S t)
          = at_ Market t * (1 + at_ (map Market_Returns data) (S t))
          /\ at_ Strategy (S t)
             = at_ Strategy t * (1 + at_ (map Strategy_Returns data) (S t))).
Proof.
  intros Hne. do 3 eexists. split; [apply performance_rendered; exact Hne|].
  rewrite !cumprod_length, !length_map.
  split; [reflexivity|]. split; [reflexivity|].
  assert (Hlen : (0 < length data)%nat)
    by (destruct data; [contradiction | cbn; lia]).
  assert (H0 : forall f : Row -> float,
             at_ (cumprod (map (fun r => 1 + f r) data)) 0
             = 1 + at_ (map f data) 0).
  { intros f. rewrite <- at_map_plus_one by exact Hlen.
    destruct data; [contradiction | reflexivity]. }
  split; [apply H0|]. split; [apply H0|].
  intros t Ht.
  split; (rewrite at_cumprod_S by now rewrite length_map);
    now rewrite at_map_plus_one.
Qed.

Lemma curves_compound_stepwise_witness :
  exists Market Strategy m,
    performance frame5 = Rendered frame5 Market Strategy m
    /\ length Market = length frame5 /\ length Strategy = length frame5
    /\ at_ Market 0 = 1 + at_ (map Market_Returns frame5) 0
    /\ at_ Strategy 0 = 1 + at_ (map Strategy_Returns frame5) 0
    /\ (forall t, (S t < length frame5)%nat ->
          at_ Market (S t)
          = at_ Market t * (1 + at_ (map Market_Returns frame5) (S t))
          /\ at_ Strategy (S t)
             = at_ Strategy t * (1 + at_ (map Strategy_Returns frame5) (S t))).
Proof.
  apply (curves_compound_stepwise frame5).
  unfold frame5. discriminate.
Defined.

End CurveFacts.

(** ** The indicator columns *)

Module IndicatorFacts.
Import Pandas App ColumnFacts FrameFacts.

(** Each indicator column and the signal column is aligned with the price
    table, and an indicator is missing at every date before its window has
    filled: the first [window - 1] dates of a moving average and of the RSI. *)
Theorem indicators_aligned_with_warmup (ws wl wr : Z) (close : Series) :
  length (rolling_mean ws close) = length close
  /\ length (rolling_mean wl close) = length close
  /\ length (Ta.RSIIndicator_rsi close wr) = length close
  /\ length (signal_column ws wl close) = length close
  /\ (forall t, (Z.of_nat (S t) < ws)%Z -> at_ (rolling_mean ws close) t = nan)
  /\ (forall t, (Z.of_nat (S t) < wl)%Z -> at_ (rolling_mean wl close) t = nan)
  /\ (forall t, (Z.of_nat (S t) < wr)%Z ->
        at_ (Ta.RSIIndicator_rsi close wr) t = nan).
Proof.
  repeat split.
  - apply rolling_mean_length.
  - apply rolling_mean_length.
  - apply RSI_length.
  - apply signal_column_length.
  - intros t. apply at_rolling_mean_warmup.
  - intros t. apply at_rolling_mean_warmup.
  - intros t. apply at_RSI_warmup.
Qed.

End IndicatorFacts.

(** ** Which side the strategy takes *)

Module PositionFacts.
Import Pandas App ColumnFacts FrameFacts Examples.

(** The side of every output row is decided by the averages of the previous
    date: the strategy return of the row at date [t+1] is the market return
    when the short average of date [t] was greater than the long one, and
    the negated market return otherwise (a missing average included). *)
Theorem side_decided_by_previous_averages
    (ws wl wr : Z) (close : Series) (r : Row) :
  In r (backtest ws wl wr close) ->
  exists t, Date r = S t
    /\ Strategy_Returns r
       = (if at_ (rolling_mean wl close) t <? at_ (rolling_mean ws close) t
          then Market_Returns r else - Market_Returns r).
Proof.
  intros Hin. destruct (backtest_row _ _ _ _ _ Hin)
    as (t & Hd & Ht & _ & _ & _ & _ & _ & _ & _ & Hs).
  exists t. split; [exact Hd|]. rewrite Hs. unfold signal_column.
  rewrite np_where_gt_nth by (rewrite rolling_mean_length; lia).
  destruct (at_ (rolling_mean wl close) t <? at_ (rolling_mean ws close) t).
  - change (F64.of_Z 1) with 1. apply F64Facts.mul_one_l.
  - change (F64.of_Z (-1)) with (-1). apply F64Facts.mul_neg_one_l.
Qed.

Lemma side_decided_by_previous_averages_witness :
  exists t, Date crossing_row = S t
    /\ Strategy_Returns crossing_row
       = (if at_ (rolling_mean 3 closes5) t <? at_ (rolling_mean 2 closes5) t
          then Market_Returns crossing_row else - Market_Returns crossing_row).
Proof.
  apply (side_decided_by_previous_averages 2 3 2 closes5 crossing_row).
  vm_compute. left. reflexivity.
Defined.

End PositionFacts.
